(** * The start-up sequencer of the PENS-KAIT 2026 C++ backend

    A shallow embedding of [backend_cpp/src/main.cpp].  The file has one
    function, [main], which prints two banner lines, opens camera 0 inside a
    [try] block, reports a camera that did not open, prints a third banner,
    declares a frame buffer, runs a [while (true)] loop whose body is a
    single [break], and returns 0; the [catch (const std::exception&)]
    clause prints the exception text and returns 1.

    The embedding keeps the control flow of the C++ text: statements are
    computations in a small monad that threads the program state (the output
    written so far and the two local variables) and completes the way a C++
    statement does: normally, by [break], by [return], or by [throw]. *)

From Stdlib Require Import String Ascii List ZArith Lia.
Import ListNotations.
Local Open Scope string_scope.
Local Open Scope Z_scope.

(** ** Values *)

(** The two streams the program writes to: [std::cout] and [std::cerr]. *)
Inductive stream : Type := Cout | Cerr.

Definition stream_eqb (a b : stream) : bool :=
  match a, b with
  | Cout, Cout | Cerr, Cerr => true
  | _, _ => false
  end.

(** An object the clause [catch (const std::exception&)] matches: of
    [std::exception], or of a class that has it as a public, unambiguous
    base.  The handler uses nothing of it but [what()]. *)
Record exception : Type := { what : string }.

(** What a [throw] can carry: an object the clause
    [catch (const std::exception&)] matches, or a value of any other type
    (as in [throw 42;], or an object whose [std::exception] base is
    private). *)
Inductive thrown : Type :=
| Std (e : exception)
| NonStd (v : Z).

(** [cv::Mat], as far as this program can see one: its header fields and
    its pixel bytes. *)
Record Mat : Type := { rows : Z; cols : Z; data : list Z }.

(** [cv::VideoCapture]: the device index it was built from and the answer
    [isOpened()] gives. *)
Record VideoCapture : Type := { device : Z; opened : bool }.

(** ** Call sites

    Every call [main] makes into a library, in the order of the source
    text.  An [operator<<] chain is one call per inserted operand. *)
Inductive site : Type :=
| BannerText      (* line 6: << "[INFO] Starting ..." *)
| BannerEndl      (* line 6: << std::endl *)
| VersionLabel    (* line 9: << "[INFO] OpenCV Version: " *)
| VersionValue    (* line 9: << CV_VERSION *)
| VersionEndl     (* line 9: << std::endl *)
| CapCtor         (* line 18: cv::VideoCapture cap(0) *)
| CapIsOpened     (* line 19: cap.isOpened() *)
| CameraErrText   (* line 20: << "[ERROR] Could not open camera" *)
| CameraErrEndl   (* line 20: << std::endl *)
| InitText        (* line 24: << "[INFO] Backend Core Initialized. ..." *)
| InitEndl        (* line 24: << std::endl *)
| MatCtor         (* line 26: cv::Mat frame *)
| HandlerLabel    (* line 42: << "[ERROR] Exception: " *)
| HandlerWhat     (* line 42: << e.what() *)
| HandlerEndl.    (* line 42: << std::endl *)

Definition site_index (s : site) : nat :=
  match s with
  | BannerText => 0 | BannerEndl => 1
  | VersionLabel => 2 | VersionValue => 3 | VersionEndl => 4
  | CapCtor => 5 | CapIsOpened => 6
  | CameraErrText => 7 | CameraErrEndl => 8
  | InitText => 9 | InitEndl => 10
  | MatCtor => 11
  | HandlerLabel => 12 | HandlerWhat => 13 | HandlerEndl => 14
  end%nat.

Definition site_eqb (a b : site) : bool :=
  Nat.eqb (site_index a) (site_index b).

(** The calls of lines 6 and 9, which stand before the [try]. *)
Definition before_try (s : site) : bool :=
  match s with
  | BannerText | BannerEndl | VersionLabel | VersionValue | VersionEndl => true
  | _ => false
  end.

(** The calls of lines 11 to 40, between [try {] and its closing brace:
    the guarded region. *)
Definition in_guard (s : site) : bool :=
  match s with
  | CapCtor | CapIsOpened | CameraErrText | CameraErrEndl
  | InitText | InitEndl | MatCtor => true
  | _ => false
  end.

(** ** What a run depends on *)

(** The OpenCV build the binary is linked against: the string the macro
    [CV_VERSION] expands to, and the matrix [cv::Mat]'s default constructor
    builds.  Both come from OpenCV's headers, not from this repository. *)
Record Library : Type := {
  CV_VERSION : string;
  Mat_default : Mat
}.

(** The empty matrix OpenCV's [Mat()] builds. *)
Definition empty_Mat : Mat := {| rows := 0; cols := 0; data := [] |}.

Definition opencv (version : string) : Library :=
  {| CV_VERSION := version; Mat_default := empty_Mat |}.

(** The machine a run happens on: the command line and the environment of
    the process, and, for each device index, whether a capture opened on it
    reports [isOpened()]. *)
Record World : Type := {
  argv : list string;
  environ : list (string * string);
  camera : Z -> bool
}.

(** The call that throws, if any, and the value it throws.  The program
    leaves the exception masks of [std::cout] and [std::cerr] at their
    default and does not switch OpenCV's capture to its throwing mode, so
    in a run of the binary as it stands no call throws; an exception is
    raised when a fault is injected at a call. *)
Definition injection : Type := option (site * thrown).

(** ** Program state and trace *)

(** What happens during a run, in order.  [Put] and [Endl] are the output
    the process produces; the other events record control flow. *)
Inductive event : Type :=
| Put (o : stream) (text : string)   (* operator<< of a string *)
| Endl (o : stream)                  (* std::endl: newline and flush *)
| Raise (at_site : site) (t : thrown)
| TryEnter                           (* control enters the try block *)
| Catch (e : exception)              (* control enters the handler *)
| Iteration.                         (* the loop body starts *)

(** The trace so far and the two locals of the [try] block, [None] until
    the declaration is reached.  The state keeps the locals as the block
    leaves them; their destructors write nothing and are not modelled. *)
Record State : Type := {
  trace : list event;
  cap : option VideoCapture;
  frame : option Mat
}.

Definition initial : State := {| trace := []; cap := None; frame := None |}.

Definition log (e : event) (st : State) : State :=
  {| trace := trace st ++ [e]; cap := cap st; frame := frame st |}.

Definition set_cap (c : VideoCapture) (st : State) : State :=
  {| trace := trace st; cap := Some c; frame := frame st |}.

Definition set_frame (m : Mat) (st : State) : State :=
  {| trace := trace st; cap := cap st; frame := Some m |}.

(** ** The statement monad *)

(** How a C++ statement completes.  [Diverge] is the loop combinator running
    out of fuel. *)
Inductive completion (A : Type) : Type :=
| Normal (a : A)
| Break
| Return (status : Z)
| Throw (t : thrown)
| Diverge.

Arguments Normal {A} a.
Arguments Break {A}.
Arguments Return {A} status.
Arguments Throw {A} t.
Arguments Diverge {A}.

Definition M (A : Type) : Type := State -> completion A * State.

Definition ret {A} (a : A) : M A := fun st => (Normal a, st).

Definition bind {A B} (m : M A) (k : A -> M B) : M B :=
  fun st =>
    match m st with
    | (Normal a, st1) => k a st1
    | (Break, st1) => (Break, st1)
    | (Return z, st1) => (Return z, st1)
    | (Throw t, st1) => (Throw t, st1)
    | (Diverge, st1) => (Diverge, st1)
    end.

Declare Scope stmt_scope.
Delimit Scope stmt_scope with stmt.
Notation "x <- m ;; k" := (bind m (fun x => k))
  (at level 61, m at next level, right associativity) : stmt_scope.
Notation "m ;; k" := (bind m (fun _ => k))
  (at level 61, right associativity) : stmt_scope.
Local Open Scope stmt_scope.

Definition skip : M unit := ret tt.
Definition break_ {A} : M A := fun st => (Break, st).
Definition return_ {A} (status : Z) : M A := fun st => (Return status, st).
Definition emit (e : event) : M unit := fun st => (Normal tt, log e st).

(** [while (true) body].  Each round starts the body; [break] leaves the
    loop, normal completion of the body starts the next round, and [return]
    and [throw] leave it with the same completion. *)
Fixpoint while_true (fuel : nat) (body : M unit) : M unit :=
  match fuel with
  | O => fun st => (Diverge, st)
  | S fuel' =>
      fun st =>
        match body (log Iteration st) with
        | (Normal _, st1) => while_true fuel' body st1
        | (Break, st1) => (Normal tt, st1)
        | (Return z, st1) => (Return z, st1)
        | (Throw t, st1) => (Throw t, st1)
        | (Diverge, st1) => (Diverge, st1)
        end
  end.

(** [try body catch (const std::exception& e) handler]: the clause matches
    a thrown [std::exception] and nothing else. *)
Definition try_catch {A} (body : M A) (handler : exception -> M A) : M A :=
  fun st =>
    match body (log TryEnter st) with
    | (Throw (Std e), st1) => handler e (log (Catch e) st1)
    | other => other
    end.

(** ** Library calls and [main] *)

Section Program.

Variable lib : Library.
Variable inj : injection.
Variable w : World.

(** A call into a library at [s]: it throws when [inj] names the site, and
    goes through otherwise. *)
Definition call (s : site) : M unit :=
  fun st =>
    match inj with
    | Some (s', t) =>
        if site_eqb s s' then (Throw t, log (Raise s t) st)
        else (Normal tt, st)
    | None => (Normal tt, st)
    end.

(** [o << text] *)
Definition insert (o : stream) (s : site) (text : string) : M unit :=
  call s ;; emit (Put o text).

(** [o << std::endl] *)
Definition endl (o : stream) (s : site) : M unit :=
  call s ;; emit (Endl o).

(** [cv::VideoCapture cap(index);] *)
Definition VideoCapture_ctor (index : Z) : M unit :=
  call CapCtor ;;
  fun st =>
    (Normal tt, set_cap {| device := index; opened := camera w index |} st).

(** [cap.isOpened()] *)
Definition isOpened : M bool :=
  call CapIsOpened ;;
  fun st =>
    (Normal match cap st with Some c => opened c | None => false end, st).

(** [cv::Mat frame;] *)
Definition Mat_ctor : M unit :=
  call MatCtor ;;
  fun st => (Normal tt, set_frame (Mat_default lib) st).

(** The statements between [try {] and [}], lines 12 to 39. *)
Definition guarded (fuel : nat) : M unit :=
  VideoCapture_ctor 0 ;;
  is_open <- isOpened ;;
  (if negb is_open then
     insert Cerr CameraErrText "[ERROR] Could not open camera" ;;
     endl Cerr CameraErrEndl
   else skip) ;;
  insert Cout InitText
    "[INFO] Backend Core Initialized. Waiting for tasks..." ;;
  endl Cout InitEndl ;;
  Mat_ctor ;;
  while_true fuel break_.

(** The body of the [catch] clause, lines 42 and 43. *)
Definition handler (e : exception) : M unit :=
  insert Cerr HandlerLabel "[ERROR] Exception: " ;;
  insert Cerr HandlerWhat (what e) ;;
  endl Cerr HandlerEndl ;;
  return_ 1.

(** [int main()], lines 5 to 47. *)
Definition main (fuel : nat) : M unit :=
  insert Cout BannerText "[INFO] Starting PENS-KAIT 2026 C++ Backend..." ;;
  endl Cout BannerEndl ;;
  insert Cout VersionLabel "[INFO] OpenCV Version: " ;;
  insert Cout VersionValue (CV_VERSION lib) ;;
  endl Cout VersionEndl ;;
  try_catch (guarded fuel) handler ;;
  return_ 0.

End Program.

(** ** Runs *)

(** How the process ends: [main] returns a status, an exception leaves
    [main] uncaught (the runtime calls [std::terminate]), or the run never
    ends. *)
Inductive outcome : Type :=
| Exit (status : Z)
| Terminate (t : thrown)
| Hang.

(** Control reaching the closing brace of [main] returns 0; a [break]
    outside a loop does not compile, and is given the same reading. *)
Definition finish (c : completion unit) : outcome :=
  match c with
  | Normal _ | Break => Exit 0
  | Return z => Exit z
  | Throw t => Terminate t
  | Diverge => Hang
  end.

Record Run : Type := { result : outcome; final : State }.

(** A run of the binary linked against [lib], on machine [w], in which the
    call named by [inj], if any, throws. *)
Definition exec (lib : Library) (inj : injection) (w : World) (fuel : nat)
  : Run :=
  let (c, st) := main lib inj w fuel initial in
  {| result := finish c; final := st |}.

(** A run of the binary as it stands: no call throws. *)
Definition run (lib : Library) (w : World) (fuel : nat) : Run :=
  exec lib None w fuel.

Definition events (r : Run) : list event := trace (final r).

(** ** Reading a trace *)

(** The lines a trace writes to stream [o], and the text written after the
    last [std::endl].  [pending] is the text of the line being written. *)
Fixpoint scan (o : stream) (pending : string) (tr : list event)
  : list string * string :=
  match tr with
  | [] => ([], pending)
  | Put o' text :: tr' =>
      if stream_eqb o o' then scan o (pending ++ text) tr'
      else scan o pending tr'
  | Endl o' :: tr' =>
      if stream_eqb o o' then
        let (ls, rest) := scan o "" tr' in (pending :: ls, rest)
      else scan o pending tr'
  | _ :: tr' => scan o pending tr'
  end.

Definition lines (o : stream) (tr : list event) : list string :=
  fst (scan o "" tr).

Definition unfinished (o : stream) (tr : list event) : string :=
  snd (scan o "" tr).

Definition stdout (r : Run) : list string := lines Cout (events r).
Definition stderr (r : Run) : list string := lines Cerr (events r).

(** The exceptions raised during a run, with the call that raised each. *)
Fixpoint raised_in (tr : list event) : list (site * thrown) :=
  match tr with
  | [] => []
  | Raise s t :: tr' => (s, t) :: raised_in tr'
  | _ :: tr' => raised_in tr'
  end.

(** The exceptions the handler was entered with. *)
Fixpoint caught_in (tr : list event) : list exception :=
  match tr with
  | [] => []
  | Catch e :: tr' => e :: caught_in tr'
  | _ :: tr' => caught_in tr'
  end.

(** How many times the loop body was started. *)
Fixpoint iterations_in (tr : list event) : nat :=
  match tr with
  | [] => 0%nat
  | Iteration :: tr' => S (iterations_in tr')
  | _ :: tr' => iterations_in tr'
  end.

(** The part of a trace before control enters the [try] block, and the part
    after control enters the handler. *)
Fixpoint prologue (tr : list event) : list event :=
  match tr with
  | [] => []
  | TryEnter :: _ => []
  | e :: tr' => e :: prologue tr'
  end.

Fixpoint after_catch (tr : list event) : list event :=
  match tr with
  | [] => []
  | Catch _ :: tr' => tr'
  | _ :: tr' => after_catch tr'
  end.

Definition entered_try (tr : list event) : bool :=
  existsb (fun e => match e with TryEnter => true | _ => false end) tr.

Definition raised (r : Run) : list (site * thrown) := raised_in (events r).
Definition caught (r : Run) : list exception := caught_in (events r).
Definition iterations (r : Run) : nat := iterations_in (events r).

(** ** The three banner lines and the two diagnostics *)

Definition banner_line : string :=
  "[INFO] Starting PENS-KAIT 2026 C++ Backend...".
Definition version_line (lib : Library) : string :=
  "[INFO] OpenCV Version: " ++ CV_VERSION lib.
Definition initialized_line : string :=
  "[INFO] Backend Core Initialized. Waiting for tasks...".
Definition camera_error_line : string :=
  "[ERROR] Could not open camera".
Definition exception_line (e : exception) : string :=
  "[ERROR] Exception: " ++ what e.

(** ** Sample machines *)

Definition with_camera : World :=
  {| argv := ["backend"]; environ := []; camera := fun _ => true |}.

Definition without_camera : World :=
  {| argv := ["backend"]; environ := []; camera := fun _ => false |}.

Definition runtime_error : exception := {| what := "device lost" |}.

(** ** Properties of runs *)

(** The line feed [std::endl] writes. *)
Definition LF : ascii := ascii_of_nat 10.

Definition newline : string := String LF EmptyString.

(** The characters a trace sends to stream [o]: the inserted texts as they
    are, and a line feed for each [std::endl]. *)
Fixpoint written (o : stream) (tr : list event) : string :=
  match tr with
  | [] => ""
  | Put o' text :: tr' =>
      if stream_eqb o o' then text ++ written o tr' else written o tr'
  | Endl o' :: tr' =>
      if stream_eqb o o' then String LF (written o tr') else written o tr'
  | _ :: tr' => written o tr'
  end.

(** The number of line feeds in a text, which is the number of lines a
    reader of the stream sees it end. *)
Fixpoint line_feeds (text : string) : nat :=
  match text with
  | EmptyString => 0%nat
  | String c text' =>
      ((if Ascii.eqb c LF then 1 else 0) + line_feeds text')%nat
  end.

(** What the handler does for an exception, in the words of the spec: the
    handler is entered once, what it writes to the error stream is one
    line, the label and a description, and [main] returns the failure
    status. *)
Definition caught_and_reported (r : Run) : Prop :=
  length (caught r) = 1%nat /\
  (exists text,
      written Cerr (after_catch (events r)) =
        "[ERROR] Exception: " ++ text ++ newline) /\
  line_feeds (written Cerr (after_catch (events r))) = 1%nat /\
  result r = Exit 1.

(** The wording "any exception raised within the guarded region is caught
    and reported", read over everything that can be thrown. *)
Definition every_throw_is_caught_and_reported : Prop :=
  forall (lib : Library) (inj : injection) (w : World) (n : nat)
         (s : site) (t : thrown),
    in_guard s = true ->
    raised (exec lib inj w (S n)) = [(s, t)] ->
    caught_and_reported (exec lib inj w (S n)).

(** A statement that leaves the frame buffer as it finds it. *)
Definition keeps_frame {A : Type} (m : M A) : Prop :=
  forall st : State, frame (snd (m st)) = frame st.

(** Two output lines that agree but for the version identifier: the same
    line, or the version lines of the two builds. *)
Definition same_but_version (lib lib' : Library) (l l' : string) : Prop :=
  l = l' \/ (l = version_line lib /\ l' = version_line lib').

(** The same for events: the same event, or the insertion of [CV_VERSION]
    in the two builds. *)
Definition same_but_version_event (lib lib' : Library) (e e' : event)
  : Prop :=
  e = e' \/ (e = Put Cout (CV_VERSION lib) /\ e' = Put Cout (CV_VERSION lib')).

(** The handler wrote its label on the error stream. *)
Definition handler_label_written (r : Run) : Prop :=
  In (Put Cerr "[ERROR] Exception: ") (events r).

(** [main] asks the machine one thing, whether camera 0 opens; every run is
    the run on one of these two machines. *)
Definition machine (camera_0_opens : bool) : World :=
  {| argv := []; environ := []; camera := fun _ => camera_0_opens |}.

(** The part of a trace before control enters the handler. *)
Fixpoint before_catch (tr : list event) : list event :=
  match tr with
  | [] => []
  | Catch _ :: _ => []
  | e :: tr' => e :: before_catch tr'
  end.

(** [l] is an initial part of [full]. *)
Definition prefix_of (l full : list string) : Prop :=
  exists rest : list string, (l ++ rest)%list = full.

(** The camera diagnostic was inserted into the error stream (by the
    guarded block: the handler, which inserts any text [what()] returns,
    is left aside). *)
Definition camera_error_written (r : Run) : Prop :=
  In (Put Cerr camera_error_line) (before_catch (events r)).

(** The calls into OpenCV inside the guarded region. *)
Definition opencv_call (s : site) : bool :=
  match s with
  | CapCtor | CapIsOpened | MatCtor => true
  | _ => false
  end.

(** An exception whose text ends in a line feed, as the text of a
    [cv::Exception] does. *)
Definition ends_in_line_feed : exception :=
  {| what := "device lost" ++ newline |}.

(** ** Proof automation *)

(** Splits a statement about the runs on [w] into the run where camera 0
    opens and the run where it does not. *)
Ltac each_camera w :=
  unfold run in *;
  repeat match goal with
         | |- context [exec ?l ?i w ?f] =>
             change (exec l i w f) with (exec l i (machine (camera w 0)) f)
         | H : context [exec ?l ?i w ?f] |- _ =>
             change (exec l i w f) with (exec l i (machine (camera w 0)) f)
               in H
         end;
  let b := fresh "camera_0" in
  generalize dependent (camera w 0); intro b;
  destruct b.

(** Splits further by the call that throws: none, or a throw of either
    kind at one of the call sites. *)
Ltac each_run inj w :=
  each_camera w;
  destruct inj as [[[] [?e | ?v]] | ];
  intros.

(** Evaluates the runs of the goal and of the hypotheses. *)
Ltac evaluate :=
  repeat match goal with
         | H : context [exec] |- _ => vm_compute in H
         end;
  vm_compute.

(** Relates two evaluated outputs element by element. *)
Ltac same_but_version_all :=
  repeat (constructor;
          [first [left; reflexivity | right; split; reflexivity] |]);
  constructor.

(** ** How a run is computed *)

Lemma exec_reads_camera_0 (lib : Library) (inj : injection) (w : World)
  (fuel : nat) :
  exec lib inj w fuel = exec lib inj (machine (camera w 0)) fuel.
Proof. reflexivity. Qed.

(** The loop of lines 27 to 39: whatever the state, the first round ends in
    [break]. *)
Lemma while_true_break (n : nat) (st : State) :
  while_true (S n) break_ st = (Normal tt, log Iteration st).
Proof. reflexivity. Qed.

(** The fuel beyond the first unit is never used. *)
Lemma exec_fuel (lib : Library) (inj : injection) (w : World) (n : nat) :
  exec lib inj w (S n) = exec lib inj w 1.
Proof. reflexivity. Qed.

(** The run with OpenCV 4.8.0 and a camera. *)
Example run_with_camera :
  let r := run (opencv "4.8.0") with_camera 1 in
  events r =
    [Put Cout "[INFO] Starting PENS-KAIT 2026 C++ Backend..."; Endl Cout;
     Put Cout "[INFO] OpenCV Version: "; Put Cout "4.8.0"; Endl Cout;
     TryEnter;
     Put Cout "[INFO] Backend Core Initialized. Waiting for tasks...";
     Endl Cout;
     Iteration] /\
  cap (final r) = Some {| device := 0; opened := true |} /\
  frame (final r) = Some empty_Mat /\
  result r = Exit 0.
Proof. repeat split. Qed.

(** The same without a camera: one more line, on the error stream. *)
Example run_without_camera :
  let r := run (opencv "4.8.0") without_camera 1 in
  stdout r =
    ["[INFO] Starting PENS-KAIT 2026 C++ Backend...";
     "[INFO] OpenCV Version: 4.8.0";
     "[INFO] Backend Core Initialized. Waiting for tasks..."] /\
  stderr r = ["[ERROR] Could not open camera"] /\
  result r = Exit 0.
Proof. repeat split. Qed.

(** A [std::exception] thrown by [isOpened()]: the third banner is never
    written. *)
Example run_with_failing_isOpened :
  let r :=
    exec (opencv "4.8.0") (Some (CapIsOpened, Std runtime_error))
      with_camera 1 in
  stdout r =
    ["[INFO] Starting PENS-KAIT 2026 C++ Backend...";
     "[INFO] OpenCV Version: 4.8.0"] /\
  stderr r = ["[ERROR] Exception: device lost"] /\
  iterations r = 0%nat /\
  result r = Exit 1.
Proof. repeat split. Qed.

(** ** Sequencing and the catch clause *)

(** A statement that throws ends the sequence it stands in. *)
Lemma bind_throw {A B : Type} (m : M A) (k : A -> M B) (st st1 : State)
  (t : thrown) :
  m st = (Throw t, st1) -> bind m k st = (Throw t, st1).
Proof. intros Hm. unfold bind. rewrite Hm. reflexivity. Qed.

(** The clause matches a [std::exception] thrown by the block, and runs
    the handler with it. *)
Lemma try_catch_std {A : Type} (body : M A) (h : exception -> M A)
  (st st1 : State) (e : exception) :
  body (log TryEnter st) = (Throw (Std e), st1) ->
  try_catch body h st = h e (log (Catch e) st1).
Proof. intros Hbody. unfold try_catch. rewrite Hbody. reflexivity. Qed.

(** It matches nothing else: any other thrown value passes through. *)
Lemma try_catch_non_std {A : Type} (body : M A) (h : exception -> M A)
  (st st1 : State) (v : Z) :
  body (log TryEnter st) = (Throw (NonStd v), st1) ->
  try_catch body h st = (Throw (NonStd v), st1).
Proof. intros Hbody. unfold try_catch. rewrite Hbody. reflexivity. Qed.

(** ** Statements that leave the frame buffer alone *)

Lemma keeps_frame_bind {A B : Type} (m : M A) (k : A -> M B) :
  keeps_frame m -> (forall a, keeps_frame (k a)) -> keeps_frame (bind m k).
Proof.
  intros Hm Hk st. unfold bind.
  specialize (Hm st). destruct (m st) as [[a | | z | t |] st1]; cbn in *;
    try assumption.
  rewrite (Hk a st1). assumption.
Qed.

Lemma keeps_frame_call (inj : injection) (s : site) :
  keeps_frame (call inj s).
Proof.
  intros st. unfold call.
  destruct inj as [[s' t] |]; [destruct (site_eqb s s') |]; reflexivity.
Qed.

Lemma keeps_frame_emit (e : event) : keeps_frame (emit e).
Proof. intros st. reflexivity. Qed.

Lemma keeps_frame_insert (inj : injection) (o : stream) (s : site)
  (text : string) :
  keeps_frame (insert inj o s text).
Proof.
  apply keeps_frame_bind; [apply keeps_frame_call |].
  intros _. apply keeps_frame_emit.
Qed.

Lemma keeps_frame_endl (inj : injection) (o : stream) (s : site) :
  keeps_frame (endl inj o s).
Proof.
  apply keeps_frame_bind; [apply keeps_frame_call |].
  intros _. apply keeps_frame_emit.
Qed.

Lemma keeps_frame_loop (n : nat) : keeps_frame (while_true (S n) break_).
Proof. intros st. reflexivity. Qed.

Lemma keeps_frame_handler (inj : injection) (e : exception) :
  keeps_frame (handler inj e).
Proof.
  unfold handler.
  repeat (apply keeps_frame_bind;
          [first [apply keeps_frame_insert | apply keeps_frame_endl] |];
          intros _).
  intros st. reflexivity.
Qed.

(** ** Exit status *)

(** C1.  A run of [main] that raises no exception exits with status 0,
    whether camera 0 opened or not; a run in which the handler is entered
    exits with status 1; and a run in which [main] returns has status 0 or
    1, status 0 only when nothing was raised and status 1 only when the
    handler was entered. *)
Theorem exit_status (lib : Library) (inj : injection) (w : World) (n : nat) :
  let r := exec lib inj w (S n) in
  (raised r = [] <-> result r = Exit 0) /\
  (caught r <> [] <-> result r = Exit 1) /\
  (forall z, result r = Exit z -> z = 0 \/ z = 1) /\
  result (run lib w (S n)) = Exit 0.
Proof.
  each_run inj w; evaluate;
    (repeat split; intros; try reflexivity; try discriminate; try congruence;
     try match goal with
         | H : Exit _ = Exit ?z |- _ => injection H as <-; auto
         end).
Qed.

(** ** The handler *)

(** Line feeds add up over concatenation. *)
Lemma line_feeds_app (a b : string) :
  line_feeds (a ++ b) = (line_feeds a + line_feeds b)%nat.
Proof.
  induction a as [| c a IH]; cbn [append line_feeds]; [reflexivity |].
  rewrite IH. lia.
Qed.

(** The label and the [std::endl] around [what()] add one line feed to
    those of the text. *)
Lemma line_feeds_exception_line (text : string) :
  line_feeds ("[ERROR] Exception: " ++ text ++ newline) =
    S (line_feeds text).
Proof.
  rewrite !line_feeds_app.
  change (line_feeds "[ERROR] Exception: ") with 0%nat.
  change (line_feeds newline) with 1%nat.
  lia.
Qed.

(** What the handler sends to the two streams once it is entered with a
    [std::exception] raised in the guarded region. *)
Lemma handler_output
  (lib : Library) (inj : injection) (w : World) (n : nat)
  (s : site) (e : exception) :
  in_guard s = true ->
  raised (exec lib inj w (S n)) = [(s, Std e)] ->
  let r := exec lib inj w (S n) in
  caught r = [e] /\
  written Cerr (after_catch (events r)) =
    "[ERROR] Exception: " ++ what e ++ newline /\
  written Cout (after_catch (events r)) = "" /\
  result r = Exit 1.
Proof.
  intros Hguard Hraised r; subst r.
  each_run inj w;
    vm_compute in Hraised; try discriminate;
    injection Hraised as <- <-; try discriminate Hguard;
    repeat split; reflexivity.
Qed.

(** C2, as worded, fails twice over.  A value that is not a
    [std::exception], thrown by the constructor of [cap] inside the guarded
    region, is raised there and is neither caught nor reported; it leaves
    [main].  And a [std::exception] whose [what()] ends in a line feed is
    caught and reported, but on two lines, not one. *)
Lemma non_std_throw_is_not_caught :
  let r := exec (opencv "4.8.0") (Some (CapCtor, NonStd 42)) with_camera 1 in
  let r2 :=
    exec (opencv "4.8.0") (Some (CapCtor, Std ends_in_line_feed))
      with_camera 1 in
  in_guard CapCtor = true /\
  raised r = [(CapCtor, NonStd 42)] /\
  caught r = [] /\
  written Cerr (events r) = "" /\
  result r = Terminate (NonStd 42) /\
  ~ caught_and_reported r /\
  raised r2 = [(CapCtor, Std ends_in_line_feed)] /\
  caught r2 = [ends_in_line_feed] /\
  line_feeds (written Cerr (after_catch (events r2))) = 2%nat /\
  ~ caught_and_reported r2 /\
  ~ every_throw_is_caught_and_reported.
Proof.
  cbv zeta.
  assert (Hnot : ~ caught_and_reported
                     (exec (opencv "4.8.0") (Some (CapCtor, NonStd 42))
                        with_camera 1)).
  { intros (Hcount & _). vm_compute in Hcount. discriminate Hcount. }
  assert (Hnot2 : ~ caught_and_reported
                      (exec (opencv "4.8.0")
                         (Some (CapCtor, Std ends_in_line_feed))
                         with_camera 1)).
  { intros (_ & _ & Hfeeds & _). vm_compute in Hfeeds.
    discriminate Hfeeds. }
  repeat split; try reflexivity; try exact Hnot; try exact Hnot2.
  intros Hall.
  exact (Hnot (Hall (opencv "4.8.0") (Some (CapCtor, NonStd 42)) with_camera
                 0%nat CapCtor (NonStd 42) eq_refl eq_refl)).
Qed.

(** C2, amended.  For every exception that the clause
    [catch (const std::exception&)] matches, raised within the guarded
    region, the handler is entered once, with that exception; the handler
    sends to the error stream the label, the text of [what()] as it is and
    one [std::endl], and nothing to standard output; and [main] returns 1.
    The report has one line feed more than [what()] has: it is one line
    exactly when [what()] holds no line feed. *)
Theorem std_exception_is_caught_and_reported
  (lib : Library) (inj : injection) (w : World) (n : nat)
  (s : site) (e : exception) :
  in_guard s = true ->
  raised (exec lib inj w (S n)) = [(s, Std e)] ->
  let r := exec lib inj w (S n) in
  caught r = [e] /\
  written Cerr (after_catch (events r)) =
    "[ERROR] Exception: " ++ what e ++ newline /\
  line_feeds (written Cerr (after_catch (events r))) =
    S (line_feeds (what e)) /\
  (line_feeds (what e) = 0%nat <-> caught_and_reported r) /\
  written Cout (after_catch (events r)) = "" /\
  result r = Exit 1.
Proof.
  intros Hguard Hraised r; subst r.
  destruct (handler_output lib inj w n s e Hguard Hraised)
    as (Hcaught & Herr & Hout & Hexit).
  assert (Hfeeds :
            line_feeds (written Cerr (after_catch
                                        (events (exec lib inj w (S n))))) =
              S (line_feeds (what e))).
  { rewrite Herr. apply line_feeds_exception_line. }
  split; [exact Hcaught |].
  split; [exact Herr |].
  split; [exact Hfeeds |].
  split; [| split; [exact Hout | exact Hexit]].
  split.
  - intros Hnone. unfold caught_and_reported.
    rewrite Hcaught, Hfeeds, Hnone.
    split; [reflexivity |].
    split; [exists (what e); exact Herr |].
    split; [reflexivity | exact Hexit].
  - intros (_ & _ & Hone & _). rewrite Hfeeds in Hone. lia.
Qed.

Lemma std_exception_is_caught_and_reported_at_MatCtor :
  let r :=
    exec (opencv "4.8.0") (Some (MatCtor, Std runtime_error))
      without_camera 1 in
  in_guard MatCtor = true /\
  raised r = [(MatCtor, Std runtime_error)] /\
  caught r = [runtime_error] /\
  written Cerr (after_catch (events r)) =
    "[ERROR] Exception: device lost" ++ newline /\
  line_feeds (written Cerr (after_catch (events r))) = 1%nat /\
  result r = Exit 1.
Proof.
  pose proof
    (std_exception_is_caught_and_reported (opencv "4.8.0")
       (Some (MatCtor, Std runtime_error)) without_camera 0
       MatCtor runtime_error eq_refl eq_refl)
    as (Hcaught & Hwritten & Hfeeds & _ & _ & Hexit).
  split; [reflexivity | split; [reflexivity |]].
  split; [exact Hcaught |].
  split; [exact Hwritten |].
  split; [exact Hfeeds | exact Hexit].
Defined.

(** ** A camera that does not open *)

(** C3.  On every run in which camera 0 does not open (a run of the
    binary as it stands, where no call throws), the error stream receives
    exactly one line, the camera diagnostic; the run goes on from there:
    the initialization banner is written and the loop is entered after the
    diagnostic, not before; and [main] returns 0. *)
Theorem camera_failure_is_logged_and_ignored
  (lib : Library) (w : World) (n : nat) :
  camera w 0 = false ->
  let r := run lib w (S n) in
  stderr r = [camera_error_line] /\
  unfinished Cerr (events r) = "" /\
  (exists before after,
      events r =
        (before ++ Put Cerr camera_error_line :: Endl Cerr :: after)%list /\
      lines Cerr before = [] /\
      iterations_in before = 0%nat /\
      lines Cout after = [initialized_line] /\
      iterations_in after = 1%nat) /\
  iterations r = 1%nat /\
  raised r = [] /\
  result r = Exit 0.
Proof.
  intros Hcamera r; subst r.
  each_camera w; intros; try discriminate.
  repeat split; try reflexivity.
  exists [Put Cout banner_line; Endl Cout;
          Put Cout "[INFO] OpenCV Version: "; Put Cout (CV_VERSION lib);
          Endl Cout; TryEnter],
         [Put Cout initialized_line; Endl Cout; Iteration].
  repeat split; reflexivity.
Qed.

Lemma camera_failure_is_logged_and_ignored_without_camera :
  let r := run (opencv "4.8.0") without_camera 1 in
  camera without_camera 0 = false /\
  stderr r = ["[ERROR] Could not open camera"] /\
  iterations r = 1%nat /\
  result r = Exit 0.
Proof.
  pose proof
    (camera_failure_is_logged_and_ignored (opencv "4.8.0") without_camera 0
       eq_refl)
    as (Hstderr & _ & _ & Hloop & _ & Hexit).
  split; [reflexivity | split; [exact Hstderr |]].
  split; [exact Hloop | exact Hexit].
Defined.

(** ** Standard output *)

(** C4.  On every run in which no exception is raised (the success path),
    standard output receives exactly three lines, in this order: the
    start-up banner, the OpenCV version line, the initialization banner;
    nothing is written after the third. *)
Theorem success_path_prints_three_lines
  (lib : Library) (inj : injection) (w : World) (n : nat) :
  raised (exec lib inj w (S n)) = [] ->
  let r := exec lib inj w (S n) in
  stdout r = [banner_line; version_line lib; initialized_line] /\
  unfinished Cout (events r) = "".
Proof.
  intros Hquiet r; subst r.
  each_run inj w; vm_compute in Hquiet; try discriminate;
    split; reflexivity.
Qed.

Lemma success_path_prints_three_lines_with_camera :
  let r := exec (opencv "4.8.0") None with_camera 1 in
  raised r = [] /\
  stdout r =
    ["[INFO] Starting PENS-KAIT 2026 C++ Backend...";
     "[INFO] OpenCV Version: 4.8.0";
     "[INFO] Backend Core Initialized. Waiting for tasks..."].
Proof.
  split; [reflexivity |].
  exact (proj1 (success_path_prints_three_lines (opencv "4.8.0") None
                  with_camera 0 eq_refl)).
Defined.

(** ** The loop *)

(** C5.  Whatever the state it starts in, the loop ends in its first round:
    the body is started once and [break] leaves the loop.  So every run
    ends, for any positive fuel and with the same result, and no run starts
    the loop body twice. *)
Theorem loop_exits_in_first_iteration
  (lib : Library) (inj : injection) (w : World) (n : nat) :
  (forall st : State,
      while_true (S n) break_ st = (Normal tt, log Iteration st)) /\
  result (exec lib inj w (S n)) <> Hang /\
  exec lib inj w (S n) = exec lib inj w 1 /\
  (iterations (exec lib inj w (S n)) <= 1)%nat /\
  (raised (exec lib inj w (S n)) = [] ->
   iterations (exec lib inj w (S n)) = 1%nat).
Proof.
  split; [intros st; apply while_true_break |].
  split; [| split; [apply exec_fuel |]].
  - each_run inj w; vm_compute; discriminate.
  - each_run inj w; vm_compute; split; intros; try lia; try discriminate;
      reflexivity.
Qed.

(** ** What the output depends on *)

(** C6.  [main] takes no parameters and reads neither the command line nor
    the environment: a run is the same on any two machines on which
    camera 0 gives the same answer, whatever their command lines and
    environments, for the same build; this holds when no call throws, and
    also when the same call throws the same value in both.  Between two
    builds linked against different OpenCV libraries the runs differ in the
    inserted version text and in nothing else of the output; and the second
    line of standard output, when there is one, is the label followed by
    the library's [CV_VERSION]. *)
Theorem output_depends_on_camera_and_library_only
  (lib lib' : Library) (inj : injection) (w w' : World) (n : nat) :
  camera w 0 = camera w' 0 ->
  let r := exec lib inj w (S n) in
  run lib w' (S n) = run lib w (S n) /\
  exec lib inj w' (S n) = r /\
  (forall (args : list string) (env : list (string * string)),
      exec lib inj {| argv := args; environ := env; camera := camera w |}
        (S n) = r) /\
  (let r' := exec lib' inj w' (S n) in
   Forall2 (same_but_version_event lib lib') (events r) (events r') /\
   Forall2 (same_but_version lib lib') (stdout r) (stdout r') /\
   stderr r' = stderr r /\
   result r' = result r) /\
  (forall l, nth_error (stdout r) 1 = Some l -> l = version_line lib).
Proof.
  intros Hcamera r; subst r.
  split; [| split; [| split; [reflexivity |]]].
  - unfold run.
    rewrite (exec_reads_camera_0 lib None w'), <- Hcamera. reflexivity.
  - rewrite (exec_reads_camera_0 lib inj w'), <- Hcamera. reflexivity.
  - cbv zeta.
    rewrite (exec_reads_camera_0 lib' inj w'), <- Hcamera.
    each_run inj w; vm_compute;
      (split; [repeat split; try reflexivity; same_but_version_all
              | intros l Hl; try discriminate; congruence]).
Qed.

Lemma output_depends_on_camera_and_library_only_sample :
  let w' :=
    {| argv := ["backend"; "--verbose"]; environ := [("DISPLAY", ":0")];
       camera := fun index => Z.eqb index 0 |} in
  camera with_camera 0 = camera w' 0 /\
  exec (opencv "4.8.0") None w' 1 = exec (opencv "4.8.0") None with_camera 1 /\
  stdout (exec (opencv "4.10.0") None w' 1) =
    ["[INFO] Starting PENS-KAIT 2026 C++ Backend...";
     "[INFO] OpenCV Version: 4.10.0";
     "[INFO] Backend Core Initialized. Waiting for tasks..."].
Proof.
  cbv zeta.
  pose proof
    (output_depends_on_camera_and_library_only (opencv "4.8.0")
       (opencv "4.10.0") None with_camera
       {| argv := ["backend"; "--verbose"]; environ := [("DISPLAY", ":0")];
          camera := fun index => Z.eqb index 0 |} 0 eq_refl)
    as (_ & Hsame & _ & _ & _).
  split; [reflexivity | split; [exact Hsame | reflexivity]].
Defined.

(** ** The frame buffer *)

(** C7.  The frame buffer is written by its declaration and by nothing
    else: the loop, which follows the declaration, and the handler leave it
    as they find it, and at the end of a run it is undeclared or still the
    matrix its constructor built.  Nothing reads it either: with any other
    matrix in its place the run has the same events, the same result and
    the same capture. *)
Theorem frame_is_never_used
  (lib : Library) (inj : injection) (w : World) (n : nat) (m : Mat) :
  let r := exec lib inj w (S n) in
  let r' :=
    exec {| CV_VERSION := CV_VERSION lib; Mat_default := m |} inj w (S n) in
  keeps_frame (while_true (S n) break_) /\
  (forall e : exception, keeps_frame (handler inj e)) /\
  (frame (final r) = None \/ frame (final r) = Some (Mat_default lib)) /\
  (raised r = [] <-> frame (final r) = Some (Mat_default lib)) /\
  events r' = events r /\
  result r' = result r /\
  cap (final r') = cap (final r).
Proof.
  cbv zeta.
  split; [apply keeps_frame_loop |].
  split; [intros e; apply keeps_frame_handler |].
  each_run inj w; vm_compute;
    (repeat split; intros; try reflexivity; try discriminate;
     solve [left; reflexivity | right; reflexivity]).
Qed.

(** ** Throws the handler does not match *)

(** C8.  The handler is entered only with an exception derived from
    [std::exception] that was raised within the guarded region.  A value of
    any other type raised within the guarded region does not enter the
    handler: nothing is caught, no exception line is written, [main] does
    not return 1, and the value leaves [main]. *)
Theorem handler_matches_std_exception_only
  (lib : Library) (inj : injection) (w : World) (n : nat) :
  let r := exec lib inj w (S n) in
  (forall e : exception,
      In e (caught r) ->
      exists s, in_guard s = true /\ raised r = [(s, Std e)]) /\
  (forall (s : site) (v : Z),
      in_guard s = true ->
      raised r = [(s, NonStd v)] ->
      caught r = [] /\
      after_catch (events r) = [] /\
      ~ handler_label_written r /\
      result r <> Exit 1 /\
      result r = Terminate (NonStd v)).
Proof.
  cbv zeta. split.
  - intros e0 Hin.
    each_run inj w;
      vm_compute in Hin; try contradiction; destruct Hin as [<- | []];
      eexists; (split; [| reflexivity]); reflexivity.
  - intros s v0 Hguard Hraised.
    each_run inj w;
      vm_compute in Hraised; try discriminate;
      injection Hraised as <- <-; try discriminate Hguard;
      (repeat split; try reflexivity; try discriminate);
      vm_compute; intros H;
      repeat match goal with
             | H : _ \/ _ |- _ => destruct H as [H | H]; try discriminate H
             end;
      exact H.
Qed.

Lemma handler_matches_std_exception_only_at_CapCtor :
  let r := exec (opencv "4.8.0") (Some (CapCtor, NonStd 42)) with_camera 1 in
  in_guard CapCtor = true /\
  raised r = [(CapCtor, NonStd 42)] /\
  caught r = [] /\
  result r = Terminate (NonStd 42).
Proof.
  pose proof
    (proj2
       (handler_matches_std_exception_only (opencv "4.8.0")
          (Some (CapCtor, NonStd 42)) with_camera 0)
       CapCtor 42 eq_refl eq_refl)
    as (Hcaught & _ & _ & _ & Hresult).
  split; [reflexivity | split; [reflexivity |]].
  split; [exact Hcaught | exact Hresult].
Defined.

(** ** Standard output does not depend on the camera *)

(** C9.  A run (of the binary as it stands, where no call throws) writes
    the initialization banner and enters the loop whether camera 0 opened
    or not: the run with the camera and the run without it write the same
    three lines to standard output, in the same order, and both start the
    loop body; they differ on the error stream only. *)
Theorem stdout_is_the_same_without_camera
  (lib : Library) (w_ok w_fail : World) (n : nat) :
  camera w_ok 0 = true ->
  camera w_fail 0 = false ->
  let r_ok := run lib w_ok (S n) in
  let r_fail := run lib w_fail (S n) in
  stdout r_fail = [banner_line; version_line lib; initialized_line] /\
  stdout r_ok = stdout r_fail /\
  In (Put Cout initialized_line) (events r_fail) /\
  iterations r_fail = 1%nat /\
  iterations r_ok = 1%nat /\
  stderr r_ok = [] /\
  stderr r_fail = [camera_error_line].
Proof.
  intros Hok Hfail r_ok r_fail; subst r_ok r_fail.
  unfold run.
  rewrite (exec_reads_camera_0 lib None w_ok), Hok.
  rewrite (exec_reads_camera_0 lib None w_fail), Hfail.
  repeat split; try reflexivity.
  vm_compute. tauto.
Qed.

Lemma stdout_is_the_same_without_camera_sample :
  camera with_camera 0 = true /\
  camera without_camera 0 = false /\
  stdout (run (opencv "4.8.0") with_camera 1) =
    stdout (run (opencv "4.8.0") without_camera 1).
Proof.
  pose proof
    (stdout_is_the_same_without_camera (opencv "4.8.0") with_camera
       without_camera 0 eq_refl eq_refl)
    as (_ & Hsame & _).
  split; [reflexivity | split; [reflexivity | exact Hsame]].
Defined.

(** ** What stands before the guarded region *)

(** C10.  The start-up banner and the version line are written before
    control enters the [try] block: in every run that enters the handler,
    and so in every run that exits with status 1, the events before the
    [try] write exactly these two lines to standard output.  And an
    exception raised by a call of those two statements is raised outside
    the [try] block: the block is never entered, the handler is not
    entered, the error stream stays empty, and the exception leaves
    [main]. *)
Theorem banner_lines_stand_before_the_guard
  (lib : Library) (inj : injection) (w : World) (n : nat) :
  let r := exec lib inj w (S n) in
  (result r = Exit 1 ->
   caught r <> [] /\
   lines Cout (prologue (events r)) = [banner_line; version_line lib] /\
   lines Cout (prologue (events r)) = firstn 2 (stdout r) /\
   raised_in (prologue (events r)) = []) /\
  (forall (s : site) (t : thrown),
      before_try s = true ->
      raised r = [(s, t)] ->
      entered_try (events r) = false /\
      caught r = [] /\
      stderr r = [] /\
      result r = Terminate t).
Proof.
  cbv zeta. split.
  - intros Hexit.
    each_run inj w; vm_compute in Hexit; try discriminate;
      vm_compute; (repeat split; try reflexivity); discriminate.
  - intros s t Hbefore Hraised.
    each_run inj w;
      vm_compute in Hraised; try discriminate;
      injection Hraised as <- <-; try discriminate Hbefore;
      repeat split; reflexivity.
Qed.

Lemma banner_lines_stand_before_the_guard_sample :
  let r :=
    exec (opencv "4.8.0") (Some (VersionValue, Std runtime_error))
      with_camera 1 in
  before_try VersionValue = true /\
  raised r = [(VersionValue, Std runtime_error)] /\
  caught r = [] /\
  result r = Terminate (Std runtime_error).
Proof.
  pose proof
    (proj2
       (banner_lines_stand_before_the_guard (opencv "4.8.0")
          (Some (VersionValue, Std runtime_error)) with_camera 0)
       VersionValue (Std runtime_error) eq_refl eq_refl)
    as (_ & Hcaught & _ & Hresult).
  split; [reflexivity | split; [reflexivity |]].
  split; [exact Hcaught | exact Hresult].
Defined.

(** ** Further properties of [main] *)

(** X1.  Whatever throws and whatever the camera answers, the lines on
    standard output are an initial part of the three banner lines: never a
    fourth line, never a line out of order, never another text.  All three
    are there exactly when nothing was raised before the declaration of
    the frame buffer. *)
Theorem stdout_is_a_prefix_of_the_three_lines
  (lib : Library) (inj : injection) (w : World) (n : nat) :
  let r := exec lib inj w (S n) in
  prefix_of (stdout r) [banner_line; version_line lib; initialized_line] /\
  (length (stdout r) <= 3)%nat /\
  (length (stdout r) = 3%nat <->
   raised r = [] \/ exists t, raised r = [(MatCtor, t)]).
Proof.
  cbv zeta.
  each_run inj w; vm_compute;
    (split; [eexists; reflexivity |]);
    (split; [lia |]);
    (split;
     [ intros H; try discriminate H;
       first [left; reflexivity | right; eexists; reflexivity]
     | intros [H | [t H]]; try discriminate H; reflexivity ]).
Qed.

(** X2.  The loop is reached exactly on the runs that exit with status 0:
    the loop body is started once on those runs and never on the others,
    and on a run that exits with status 0 the start of the loop body is
    the last thing that happens, so nothing is written and nothing is
    raised after it. *)
Theorem loop_is_reached_exactly_on_exit_0
  (lib : Library) (inj : injection) (w : World) (n : nat) :
  let r := exec lib inj w (S n) in
  (iterations r = 1%nat <-> result r = Exit 0) /\
  (result r <> Exit 0 -> iterations r = 0%nat) /\
  (result r = Exit 0 ->
   exists before, events r = (before ++ [Iteration])%list).
Proof.
  cbv zeta.
  each_run inj w; vm_compute;
    (split; [split; intros H; try discriminate H; reflexivity |]);
    (split;
     [ intros H; try reflexivity; exfalso; apply H; reflexivity
     | intros H; try discriminate H ]).
  all: match goal with
       | |- exists before, ?tr = _ =>
           exists (removelast tr); reflexivity
       end.
Qed.

(** X3.  The exception label appears on the error stream exactly on the
    runs that exit with status 1. *)
Theorem exception_label_iff_exit_1
  (lib : Library) (inj : injection) (w : World) (n : nat) :
  let r := exec lib inj w (S n) in
  handler_label_written r <-> result r = Exit 1.
Proof.
  cbv zeta.
  each_run inj w; vm_compute;
    (split;
     [ intros H;
       repeat match goal with
              | H : _ \/ _ |- _ => destruct H as [H | H]; try discriminate H
              end;
       try contradiction; reflexivity
     | intros H; try discriminate H; tauto ]).
Qed.

(** X4.  The program opens device 0 and no other: at the end of a run the
    capture is not constructed, or is the capture of device 0 with the
    answer camera 0 gives; it is constructed unless something was raised
    before or by its constructor.  The camera diagnostic is never written
    on a run whose camera 0 opened. *)
Theorem capture_is_device_0
  (lib : Library) (inj : injection) (w : World) (n : nat) :
  let r := exec lib inj w (S n) in
  (cap (final r) = None \/
   cap (final r) = Some {| device := 0; opened := camera w 0 |}) /\
  (cap (final r) = None <->
   exists s t,
     raised r = [(s, t)] /\ (before_try s = true \/ s = CapCtor)) /\
  (camera_error_written r -> camera w 0 = false).
Proof.
  cbv zeta. unfold camera_error_written.
  each_run inj w; vm_compute;
    (split; [first [left; reflexivity | right; reflexivity] |]);
    (split;
     [ split;
       [ intros H;
         first
           [ discriminate H
           | do 2 eexists; split;
             [reflexivity | first [left; reflexivity | right; reflexivity]] ]
       | intros (s & t & H & [Hs | Hs]);
         first
           [ discriminate H
           | reflexivity
           | injection H as <- <-; discriminate Hs ] ]
     | intros H;
       first
         [ reflexivity
         | repeat match goal with
                  | H : _ \/ _ |- _ =>
                      destruct H as [H | H]; try discriminate H
                  end;
           contradiction ] ]).
Qed.

(** X5.  When one of the OpenCV calls of the guarded region throws a
    [std::exception], the error stream ends with the handler's report: the
    label, the text of [what()] and a line feed.  The camera diagnostic
    stands before the report exactly when camera 0 did not open and the
    throw came after the test of [isOpened()], from the declaration of the
    frame buffer; nothing else is sent to the error stream. *)
Theorem stderr_after_opencv_exception
  (lib : Library) (inj : injection) (w : World) (n : nat)
  (s : site) (e : exception) :
  opencv_call s = true ->
  raised (exec lib inj w (S n)) = [(s, Std e)] ->
  let r := exec lib inj w (S n) in
  written Cerr (events r) =
    (if andb (site_eqb s MatCtor) (negb (camera w 0))
     then camera_error_line ++ newline
     else "") ++
    "[ERROR] Exception: " ++ what e ++ newline /\
  written Cerr (before_catch (events r)) =
    (if andb (site_eqb s MatCtor) (negb (camera w 0))
     then camera_error_line ++ newline
     else "") /\
  result r = Exit 1.
Proof.
  intros Hcall Hraised r; subst r.
  each_run inj w;
    vm_compute in Hraised; try discriminate;
    injection Hraised as <- <-; try discriminate Hcall;
    repeat split; reflexivity.
Qed.

Lemma stderr_after_opencv_exception_at_MatCtor :
  let r :=
    exec (opencv "4.8.0") (Some (MatCtor, Std runtime_error))
      without_camera 1 in
  opencv_call MatCtor = true /\
  raised r = [(MatCtor, Std runtime_error)] /\
  written Cerr (events r) =
    "[ERROR] Could not open camera" ++ newline ++
    "[ERROR] Exception: device lost" ++ newline.
Proof.
  split; [reflexivity | split; [reflexivity |]].
  exact (proj1 (stderr_after_opencv_exception (opencv "4.8.0")
                  (Some (MatCtor, Std runtime_error)) without_camera 0
                  MatCtor runtime_error eq_refl eq_refl)).
Defined.

(** X6.  When the constructor of the capture or [isOpened()] throws a
    [std::exception], the run stops acquiring: neither the camera
    diagnostic nor the initialization banner is written, the frame buffer
    is never declared and the loop is never reached.  Standard output
    holds the first two banner lines, the error stream holds the exception
    line alone, and [main] returns 1, whatever camera 0 would have
    answered. *)
Theorem acquisition_exception_skips_the_rest
  (lib : Library) (inj : injection) (w : World) (n : nat)
  (s : site) (e : exception) :
  s = CapCtor \/ s = CapIsOpened ->
  raised (exec lib inj w (S n)) = [(s, Std e)] ->
  let r := exec lib inj w (S n) in
  stdout r = [banner_line; version_line lib] /\
  stderr r = [exception_line e] /\
  ~ camera_error_written r /\
  frame (final r) = None /\
  iterations r = 0%nat /\
  result r = Exit 1.
Proof.
  intros Hsite Hraised r; subst r. unfold camera_error_written.
  each_run inj w; vm_compute in Hraised; try discriminate Hraised;
    injection Hraised as <- <-;
    (destruct Hsite as [Hsite | Hsite]; try discriminate Hsite);
    (repeat split; try reflexivity);
    vm_compute; intros H;
    repeat match goal with
           | H : _ \/ _ |- _ => destruct H as [H | H]; try discriminate H
           end;
    exact H.
Qed.

Lemma acquisition_exception_skips_the_rest_at_CapCtor :
  let r :=
    exec (opencv "4.8.0") (Some (CapCtor, Std runtime_error))
      without_camera 1 in
  (CapCtor = CapCtor \/ CapCtor = CapIsOpened) /\
  raised r = [(CapCtor, Std runtime_error)] /\
  stdout r =
    ["[INFO] Starting PENS-KAIT 2026 C++ Backend...";
     "[INFO] OpenCV Version: 4.8.0"] /\
  stderr r = ["[ERROR] Exception: device lost"] /\
  result r = Exit 1.
Proof.
  pose proof
    (acquisition_exception_skips_the_rest (opencv "4.8.0")
       (Some (CapCtor, Std runtime_error)) without_camera 0
       CapCtor runtime_error (or_introl eq_refl) eq_refl)
    as (Hout & Herr & _ & _ & _ & Hexit).
  split; [left; reflexivity | split; [reflexivity |]].
  split; [exact Hout | split; [exact Herr | exact Hexit]].
Defined.
